(** * Breakpoint event notification adapter

    A shallow embedding of [examples/adapters/notify.py]: the function
    [notify] builds one event, posts it to the Breakpoint service with
    [requests.post] and hands back the decoded acknowledgment.

    The embedding keeps Python's moving parts explicit:
    - values that travel in the payload are JSON values ([json]);
    - dictionaries are finite maps with string keys;
    - the wall clock, the remote service and the JSON decoder are the
      surroundings of the process ([Env]);
    - a call threads the process state ([Proc]: clock reads made so far
      and the requests handed to [requests.post]) and ends by returning,
      raising, or blocking for ever ([outcome]). *)

From Stdlib Require Import ZArith Ascii PrimFloat FloatOps SpecFloat Uint63.
From stdpp Require Import gmap strings pretty list.

Open Scope Z_scope.
Set Warnings "-register-all".

(** ** Values *)

(** A value that [json.dumps] accepts.  Numbers are the integers; no
    property below looks inside a number. *)
Inductive json : Type :=
| JNull
| JBool (b : bool)
| JInt (n : Z)
| JStr (s : string)
| JList (l : list json)
| JDict (d : list (string * json)).

(** ** Exceptions and outcomes *)

Inductive type_error : Type :=
| TooManyPositional (given : nat)
| MultipleValues (param : string)
| MissingArgument (param : string).

Record Response : Type := mkResponse {
  status_code : Z;
  text : string
}.

(** The exceptions a call of [notify] can end with.  [Timeout],
    [ConnectionError], [HTTPError] and [JSONDecodeError] are those of
    [requests.exceptions]; [Timeout] records the limit that ran out and
    [HTTPError] the response it was raised for. *)
Inductive exn : Type :=
| TypeError (why : type_error)
| ValueError
| OverflowError
| ConnectionError
| Timeout (limit : Z)
| HTTPError (resp : Response)
| JSONDecodeError.

(** How a computation ends.  [Blocks] is a call that never comes back. *)
Inductive outcome (A : Type) : Type :=
| Returns (a : A)
| Raises (e : exn)
| Blocks.
Arguments Returns {A} a.
Arguments Raises {A} e.
Arguments Blocks {A}.

(** The error classes of the specification, and the exception each one
    stands for in this adapter. *)
Inductive error_class : Type :=
| TransportError
| ProtocolError
| DecodeError
| OtherError.

Definition classify (e : exn) : error_class :=
  match e with
  | ConnectionError | Timeout _ => TransportError
  | HTTPError _ => ProtocolError
  | JSONDecodeError => DecodeError
  | TypeError _ | ValueError | OverflowError => OtherError
  end.

(** ** Floats: [datetime.timestamp()] and [int()] *)

(** An integer as a double; exact below 2^53, which covers every second
    count and microsecond of a [datetime]. *)
Definition float_of_Z (z : Z) : float :=
  if z <? 0
  then PrimFloat.opp (PrimFloat.of_uint63 (Uint63.of_Z (- z)))
  else PrimFloat.of_uint63 (Uint63.of_Z z).

(** Python's [int(x)] on a float: truncation towards zero; [inf] raises
    OverflowError and [nan] ValueError. *)
Definition py_int (x : float) : exn + Z :=
  match Prim2SF x with
  | S754_zero _ => inr 0
  | S754_finite s m e =>
      let mag := if 0 <=? e
                 then Z.shiftl (Z.pos m) e
                 else Z.shiftr (Z.pos m) (- e) in
      inr (if s then - mag else mag)
  | S754_infinity _ => inl OverflowError
  | S754_nan => inl ValueError
  end.

(** ** Dates *)

(** The fields of a naive [datetime]. *)
Record DateTime : Type := mkDateTime {
  year : N;
  month : N;
  day : N;
  hour : N;
  minute : N;
  second : N;
  microsecond : N
}.

Fixpoint zeros (n : nat) : string :=
  match n with
  | O => ""
  | S n' => String "0"%char (zeros n')
  end.

(** [%0wd] on a non-negative number. *)
Definition zfill (w : nat) (n : N) : string :=
  let s := pretty n in
  zeros (w - String.length s) +:+ s.

(** [datetime.isoformat()] of a naive datetime: the fraction is printed
    only when the microsecond is not zero. *)
Definition isoformat (d : DateTime) : string :=
  zfill 4 (year d) +:+ "-" +:+ zfill 2 (month d) +:+ "-" +:+ zfill 2 (day d)
  +:+ "T" +:+ zfill 2 (hour d) +:+ ":" +:+ zfill 2 (minute d)
  +:+ ":" +:+ zfill 2 (second d)
  +:+ (if (microsecond d =? 0)%N then "" else "." +:+ zfill 6 (microsecond d)).

(** [datetime.timestamp()] of a naive datetime: the POSIX second count of
    the local time as a double, plus the microseconds over a million. *)
Definition timestamp_of (seconds : Z) (us : N) : float :=
  PrimFloat.add (float_of_Z seconds)
                (PrimFloat.div (float_of_Z (Z.of_N us)) 1e6%float).

(** [int(timestamp * 1000)], the number inside the event id. *)
Definition millis_of (seconds : Z) (us : N) : exn + Z :=
  py_int (PrimFloat.mul (timestamp_of seconds us) 1000%float).

Definition is_inr {A B : Type} (x : A + B) : bool :=
  match x with inr _ => true | inl _ => false end.

(** One reading of the system clock: the POSIX second count, the UTC
    calendar fields that [utcnow()] shows (the microsecond is the same in
    local time), and the fact that the timestamp of a datetime is a
    finite double. *)
Record Instant : Type := mkInstant {
  posix_seconds : Z;
  utc : DateTime;
  timestamp_finite : is_inr (millis_of posix_seconds (microsecond utc)) = true
}.

Definition timestamp (i : Instant) : float :=
  timestamp_of (posix_seconds i) (microsecond (utc i)).

(** ** Requests, the surroundings and the process state *)

Record Request : Type := mkRequest {
  req_method : string;
  req_url : string;
  req_headers : gmap string string;
  req_json : gmap string json;
  req_timeout : option Z
}.

(** What the remote end does with one request. *)
Inductive Service : Type :=
| Unreachable
| Silent
| Replies (resp : Response).

(** The module constants read from the environment at import. *)
Record Config : Type := mkConfig {
  BREAKPOINT_URL : string;
  BREAKPOINT_TOKEN : string
}.

(** The surroundings of the process: the [n]-th reading of the clock,
    what the service does with the [n]-th request, and the decoder behind
    [Response.json()] ([None] when the text is not JSON). *)
Record Env : Type := mkEnv {
  clock : nat -> Instant;
  service : nat -> Request -> Service;
  json_loads : string -> option json
}.

Record Proc : Type := mkProc {
  clock_reads : nat;
  wire : list Request
}.

(** ** The monad of a Python call *)

Definition py (A : Type) : Type := Proc -> outcome A * Proc.

Definition py_ret {A : Type} (a : A) : py A := fun p => (Returns a, p).

Definition py_raise {A : Type} (e : exn) : py A := fun p => (Raises e, p).

Definition py_bind {A B : Type} (m : py A) (k : A -> py B) : py B :=
  fun p =>
    match m p with
    | (Returns a, p') => k a p'
    | (Raises e, p') => (Raises e, p')
    | (Blocks, p') => (Blocks, p')
    end.

#[global] Instance py_mret : MRet py := @py_ret.
#[global] Instance py_mbind : MBind py := fun A B k m => py_bind m k.

Definition lift_sum {A : Type} (x : exn + A) : py A :=
  match x with
  | inl e => py_raise e
  | inr a => py_ret a
  end.

(** ** The adapter *)

Section Adapter.

Variable cfg : Config.
Variable env : Env.

(** [datetime.datetime.now()] and [datetime.datetime.utcnow()]: each one
    reads the system clock once. *)
Definition read_clock : py Instant :=
  fun p => (Returns (clock env (clock_reads p)),
            {| clock_reads := S (clock_reads p); wire := wire p |}).

Definition datetime_now : py Instant := read_clock.

Definition datetime_utcnow : py DateTime := i ← read_clock; mret (utc i).

(** [requests.post(url, headers=..., json=..., timeout=...)].  The call
    is recorded, then the service decides: a reply comes back as the
    response; a connection that cannot be made raises ConnectionError; a
    service that stays silent raises Timeout when the limit runs out, and
    blocks the caller for ever when no limit was given. *)
Definition requests_post (url : string) (headers : gmap string string)
    (payload : gmap string json) (timeout : option Z) : py Response :=
  fun p =>
    let req := {| req_method := "POST"; req_url := url;
                  req_headers := headers; req_json := payload;
                  req_timeout := timeout |} in
    let p' := {| clock_reads := clock_reads p; wire := wire p ++ [req] |} in
    match service env (length (wire p)) req with
    | Replies resp => (Returns resp, p')
    | Unreachable => (Raises ConnectionError, p')
    | Silent =>
        match timeout with
        | Some limit => (Raises (Timeout limit), p')
        | None => (Blocks, p')
        end
    end.

(** [Response.raise_for_status()]: HTTPError for a 4xx or a 5xx status. *)
Definition raise_for_status (resp : Response) : py unit :=
  if (400 <=? status_code resp) && (status_code resp <? 500)
  then py_raise (HTTPError resp)
  else if (500 <=? status_code resp) && (status_code resp <? 600)
  then py_raise (HTTPError resp)
  else mret tt.

(** [Response.json()]. *)
Definition response_json (resp : Response) : py json :=
  match json_loads env (text resp) with
  | Some v => mret v
  | None => py_raise JSONDecodeError
  end.

(** A dictionary display that ends in [**kwargs]: the keys of [kwargs]
    are stored last, so they replace equal keys written before them. *)
Definition unpack_into (d kwargs : gmap string json) : gmap string json :=
  kwargs ∪ d.

(** The body of [notify], once its arguments are bound. *)
Definition notify (title event_type priority : json)
    (kwargs : gmap string json) : py json :=
  now ← datetime_now;
  ms ← lift_sum (py_int (PrimFloat.mul (timestamp now) 1000%float));
  utcnow ← datetime_utcnow;
  resp ← requests_post
    (BREAKPOINT_URL cfg +:+ "/api/v1/events")
    {[ "Authorization" := "Bearer " +:+ BREAKPOINT_TOKEN cfg ]}
    (unpack_into
       {[ "id" := JStr ("py-" +:+ pretty ms);
          "event_type" := event_type;
          "source" := JStr "python-adapter";
          "priority" := priority;
          "title" := title;
          "timestamp" := JStr (isoformat utcnow +:+ "Z") ]}
       kwargs)
    (Some 10);
  raise_for_status resp;;
  response_json resp.

(** *** Binding the arguments of a call

    [def notify(title, event_type="custom", priority="ambient", **kwargs)]:
    a parameter takes its positional argument or the keyword argument of
    its name, never both; keywords that name no parameter go to
    [kwargs]. *)
Definition bind_param (name : string) (positional : option json)
    (keywords : gmap string json) (default : option json) : exn + json :=
  match positional, keywords !! name with
  | Some _, Some _ => inl (TypeError (MultipleValues name))
  | Some v, None => inr v
  | None, Some v => inr v
  | None, None =>
      match default with
      | Some v => inr v
      | None => inl (TypeError (MissingArgument name))
      end
  end.

Definition bind_notify (args : list json) (keywords : gmap string json)
    : exn + (json * json * json * gmap string json) :=
  if (3 <? length args)%nat
  then inl (TypeError (TooManyPositional (length args)))
  else
    match bind_param "title" (args !! 0%nat) keywords None with
    | inl e => inl e
    | inr title =>
        match bind_param "event_type" (args !! 1%nat) keywords
                         (Some (JStr "custom")) with
        | inl e => inl e
        | inr event_type =>
            match bind_param "priority" (args !! 2%nat) keywords
                             (Some (JStr "ambient")) with
            | inl e => inl e
            | inr priority =>
                inr (title, event_type, priority,
                     delete "title"
                       (delete "event_type" (delete "priority" keywords)))
            end
        end
    end.

(** A call of [notify] as a caller writes it: positional arguments and
    keyword arguments. *)
Definition call_notify (args : list json) (keywords : gmap string json)
    : py json :=
  match bind_notify args keywords with
  | inl e => py_raise e
  | inr (title, event_type, priority, kwargs) =>
      notify title event_type priority kwargs
  end.

End Adapter.

(** ** Observing a call *)

(** The result, the state left behind, and the requests that a call put
    on the wire. *)
Definition result_of {A : Type} (m : py A) (p : Proc) : outcome A := fst (m p).

Definition state_after {A : Type} (m : py A) (p : Proc) : Proc := snd (m p).

Definition sent {A : Type} (m : py A) (p : Proc) : list Request :=
  drop (length (wire p)) (wire (state_after m p)).

(** ** What a call builds *)

(** The field names of the event itself. *)
Definition reserved : list string :=
  ["id"; "event_type"; "source"; "priority"; "title"; "timestamp"].

(** The number inside the id generated at clock reading [i]. *)
Definition millis (i : Instant) : Z :=
  match millis_of (posix_seconds i) (microsecond (utc i)) with
  | inr z => z
  | inl _ => 0
  end.

Definition generated_id (now : Instant) : json :=
  JStr ("py-" +:+ pretty (millis now)).

Definition generated_timestamp (utcnow : DateTime) : json :=
  JStr (isoformat utcnow +:+ "Z").

(** The six fields that [notify] writes before [kwargs] is unpacked. *)
Definition event_fields (now : Instant) (utcnow : DateTime)
    (title event_type priority : json) : gmap string json :=
  {[ "id" := generated_id now;
     "event_type" := event_type;
     "source" := JStr "python-adapter";
     "priority" := priority;
     "title" := title;
     "timestamp" := generated_timestamp utcnow ]}.

(** The request that [notify] hands to [requests.post] when it starts in
    state [p]: the first clock reading gives the id, the second one the
    timestamp. *)
Definition event_request (cfg : Config) (env : Env) (p : Proc)
    (title event_type priority : json) (kwargs : gmap string json) : Request :=
  {| req_method := "POST";
     req_url := BREAKPOINT_URL cfg +:+ "/api/v1/events";
     req_headers := {[ "Authorization" := "Bearer " +:+ BREAKPOINT_TOKEN cfg ]};
     req_json :=
       unpack_into
         (event_fields (clock env (clock_reads p))
                       (utc (clock env (S (clock_reads p))))
                       title event_type priority)
         kwargs;
     req_timeout := Some 10 |}.

(** How [notify] ends, given what the service did with its request. *)
Definition conclude (env : Env) (s : Service) : outcome json :=
  match s with
  | Unreachable => Raises ConnectionError
  | Silent => Raises (Timeout 10)
  | Replies resp =>
      if (400 <=? status_code resp) && (status_code resp <? 600)
      then Raises (HTTPError resp)
      else match json_loads env (text resp) with
           | Some v => Returns v
           | None => Raises JSONDecodeError
           end
  end.

(** The value a caller gave for a parameter, by position or by name. *)
Definition supplied (name : string) (position : nat)
    (args : list json) (keywords : gmap string json) : option json :=
  match args !! position with
  | Some v => Some v
  | None => keywords !! name
  end.

(** ** Sample surroundings *)

Definition nov14 (us : N) : DateTime :=
  {| year := 2023; month := 11; day := 14;
     hour := 22; minute := 13; second := 20; microsecond := us |}.

(** Readings of the clock within the second 1700000000. *)
Definition reading (us : N)
    (fin : is_inr (millis_of 1700000000 us) = true) : Instant :=
  {| posix_seconds := 1700000000; utc := nov14 us; timestamp_finite := fin |}.

Definition r0200 : Instant := reading 200 eq_refl.
Definition r0450 : Instant := reading 450 eq_refl.
Definition r0700 : Instant := reading 700 eq_refl.
Definition r0950 : Instant := reading 950 eq_refl.
Definition r3100 : Instant := reading 3100 eq_refl.
Definition r3400 : Instant := reading 3400 eq_refl.

(** One millisecond past the epoch: the double product falls just short
    of 1001. *)
Definition r_epoch : Instant :=
  {| posix_seconds := 1;
     utc := {| year := 1970; month := 1; day := 1;
               hour := 0; minute := 0; second := 1; microsecond := 1000 |};
     timestamp_finite := eq_refl |}.

(** A clock whose readings all fall in one millisecond, and one that
    moves on by three milliseconds between two calls. *)
Definition fast_clock (n : nat) : Instant :=
  match n with
  | 0%nat => r0200
  | 1%nat => r0450
  | 2%nat => r0700
  | _ => r0950
  end.

Definition slow_clock (n : nat) : Instant :=
  match n with
  | 0%nat => r0200
  | 1%nat => r0450
  | 2%nat => r3100
  | _ => r3400
  end.

(** A wall clock that is set back between two calls. *)
Definition set_back_clock (n : nat) : Instant :=
  match n with
  | 0%nat => r3100
  | 1%nat => r3400
  | 2%nat => r0200
  | _ => r0450
  end.

(** A decoder that knows a few JSON texts. *)
Definition literal_loads (s : string) : option json :=
  if String.eqb s "null" then Some JNull
  else if String.eqb s "[]" then Some (JList [])
  else if String.eqb s "{}" then Some (JDict [])
  else if String.eqb s "1" then Some (JInt 1)
  else None.

Definition answering (status : Z) (body : string) : nat -> Request -> Service :=
  fun _ _ => Replies {| status_code := status; text := body |}.

Definition env_with (c : nat -> Instant) (s : nat -> Request -> Service) : Env :=
  {| clock := c; service := s; json_loads := literal_loads |}.

Definition local_cfg : Config :=
  {| BREAKPOINT_URL := "http://localhost:8080"; BREAKPOINT_TOKEN := "s3cr3t" |}.

Definition fresh : Proc := {| clock_reads := 0; wire := [] |}.

(** The service accepts and answers with an empty object. *)
Definition accepting (c : nat -> Instant) : Env := env_with c (answering 200 "{}").

Definition deploy : json := JStr "Deploy finished".
Definition custom : json := JStr "custom".
Definition ambient : json := JStr "ambient".

(** ** The module constants *)

(** [os.environ.get(name, default)]: the default is used only when the
    variable is not set. *)
Definition environ_get (environ : gmap string string)
    (name default : string) : string :=
  match environ !! name with
  | Some v => v
  | None => default
  end.

(** The two assignments made when the module is imported. *)
Definition load_config (environ : gmap string string) : Config :=
  {| BREAKPOINT_URL :=
       environ_get environ "BREAKPOINT_URL" "http://localhost:8080";
     BREAKPOINT_TOKEN := environ_get environ "BREAKPOINT_API_TOKEN" "" |}.

(** ** Calls in a row *)

(** The arguments of one bound call. *)
Record Invocation : Type := mkInvocation {
  inv_title : json;
  inv_event_type : json;
  inv_priority : json;
  inv_kwargs : gmap string json
}.

(** The state left by a row of calls, each made whatever the one before
    ended with (the caller catches what is raised). *)
Definition run_each (cfg : Config) (env : Env)
    (calls : list Invocation) (p : Proc) : Proc :=
  foldl (fun q c =>
           state_after
             (notify cfg env (inv_title c) (inv_event_type c)
                     (inv_priority c) (inv_kwargs c)) q)
        p calls.

(** ** The script *)

(** What ends the script besides the exceptions of [notify]: an index
    outside [sys.argv], [result[key]] on a dict without the key
    (KeyError) or on a value that is no dict (TypeError), and
    [sys.exit]. *)
Inductive script_exn : Type :=
| FromNotify (e : exn)
| IndexError
| KeyError (key : string)
| SubscriptTypeError
| SystemExit (code : Z).

Inductive script_outcome (A : Type) : Type :=
| Done (a : A)
| Dies (e : script_exn)
| Hangs.
Arguments Done {A} a.
Arguments Dies {A} e.
Arguments Hangs {A}.

(** The state of the script: the lines printed so far and the state of
    the process. *)
Record Script : Type := mkScript {
  stdout : list string;
  proc : Proc
}.

Definition sc (A : Type) : Type := Script -> script_outcome A * Script.

Definition sc_ret {A : Type} (a : A) : sc A := fun s => (Done a, s).

Definition sc_die {A : Type} (e : script_exn) : sc A := fun s => (Dies e, s).

Definition sc_bind {A B : Type} (m : sc A) (k : A -> sc B) : sc B :=
  fun s =>
    match m s with
    | (Done a, s') => k a s'
    | (Dies e, s') => (Dies e, s')
    | (Hangs, s') => (Hangs, s')
    end.

#[global] Instance sc_mret : MRet sc := @sc_ret.
#[global] Instance sc_mbind : MBind sc := fun A B k m => sc_bind m k.

(** [print(line)]. *)
Definition print (line : string) : sc unit :=
  fun s => (Done tt, {| stdout := stdout s ++ [line]; proc := proc s |}).

(** [sys.exit(code)]. *)
Definition sys_exit {A : Type} (code : Z) : sc A := sc_die (SystemExit code).

(** [l[i]] on a list. *)
Definition index (l : list string) (i : nat) : sc string :=
  match l !! i with
  | Some x => sc_ret x
  | None => sc_die IndexError
  end.

(** A call of the adapter from the script: what it raises is not
    caught. *)
Definition call {A : Type} (m : py A) : sc A :=
  fun s =>
    match m (proc s) with
    | (Returns a, p') => (Done a, {| stdout := stdout s; proc := p' |})
    | (Raises e, p') => (Dies (FromNotify e), {| stdout := stdout s; proc := p' |})
    | (Blocks, p') => (Hangs, {| stdout := stdout s; proc := p' |})
    end.

(** The value stored under [key] among the items of a dict (the keys of
    a dict are distinct). *)
Fixpoint items_get (key : string) (d : list (string * json)) : option json :=
  match d with
  | [] => None
  | (k, v) :: rest => if String.eqb k key then Some v else items_get key rest
  end.

(** [v[key]] with a string key. *)
Definition subscript (v : json) (key : string) : sc json :=
  match v with
  | JDict d =>
      match items_get key d with
      | Some x => sc_ret x
      | None => sc_die (KeyError key)
      end
  | JNull | JBool _ | JInt _ | JStr _ | JList _ => sc_die SubscriptTypeError
  end.

Definition usage (prog : string) : string :=
  "Usage: " +:+ prog +:+ " <title> [event_type] [priority]".

Section Script.

Variable cfg : Config.
Variable env : Env.

(** The text of a value inside an f-string, Python's [str]. *)
Variable py_str : json -> string.

(** The last line of the script, on the decoded result. *)
Definition report (result : json) : sc unit :=
  accepted ← subscript result "accepted";
  event_ids ← subscript result "event_ids";
  print ("Accepted " +:+ py_str accepted +:+ " event(s): " +:+ py_str event_ids).

(** The block run when the file is the main program, on [sys.argv]. *)
Definition main (argv : list string) : sc unit :=
  (if (length argv <? 2)%nat
   then prog ← index argv 0;
        print (usage prog);;
        sys_exit 1
   else mret tt);;
  title ← index argv 1;
  event_type ← (if (2 <? length argv)%nat then index argv 2 else mret "custom");
  priority ← (if (3 <? length argv)%nat then index argv 3 else mret "ambient");
  result ← call (call_notify cfg env [JStr title]
                   {[ "event_type" := JStr event_type;
                      "priority" := JStr priority ]});
  accepted ← subscript result "accepted";
  event_ids ← subscript result "event_ids";
  print ("Accepted " +:+ py_str accepted +:+ " event(s): " +:+ py_str event_ids).

End Script.

(** The exit status of the interpreter: 0 at the end of the script, the
    code of [sys.exit], 1 for any other exception. *)
Definition exit_status {A : Type} (o : script_outcome A) : option Z :=
  match o with
  | Done _ => Some 0
  | Dies (SystemExit code) => Some code
  | Dies _ => Some 1
  | Hangs => None
  end.

(** The request the script sends for [title] and the arguments after
    it. *)
Definition script_request (cfg : Config) (env : Env) (p : Proc)
    (title : string) (rest : list string) : Request :=
  event_request cfg env p (JStr title)
    (JStr (default "custom" (rest !! 0%nat)))
    (JStr (default "ambient" (rest !! 1%nat))) ∅.

(** *** Samples for the script *)

(** A text for the values the samples print. *)
Definition show (v : json) : string :=
  match v with
  | JInt n => pretty n
  | JStr s => s
  | JList [] => "[]"
  | _ => "?"
  end.

(** A decoder that knows one acknowledgment. *)
Definition ack_loads (s : string) : option json :=
  if String.eqb s "ack"
  then Some (JDict [("accepted", JInt 1); ("event_ids", JList [])])
  else literal_loads s.

Definition ack_env : Env :=
  {| clock := fast_clock; service := answering 200 "ack";
     json_loads := ack_loads |}.

Definition console : Script := {| stdout := []; proc := fresh |}.

(** ** Properties *)

(** *** The monad *)

Lemma py_bind_returns {A B : Type} (m : py A) (k : A -> py B) p a p' :
  m p = (Returns a, p') -> (m ≫= k) p = k a p'.
Proof. intros H. unfold mbind, py_mbind, py_bind. now rewrite H. Qed.

Lemma py_bind_raises {A B : Type} (m : py A) (k : A -> py B) p e p' :
  m p = (Raises e, p') -> (m ≫= k) p = (Raises e, p').
Proof. intros H. unfold mbind, py_mbind, py_bind. now rewrite H. Qed.

Lemma py_bind_blocks {A B : Type} (m : py A) (k : A -> py B) p p' :
  m p = (Blocks, p') -> (m ≫= k) p = (Blocks, p').
Proof. intros H. unfold mbind, py_mbind, py_bind. now rewrite H. Qed.

(** *** Clock readings *)

Lemma py_int_timestamp (i : Instant) :
  py_int (PrimFloat.mul (timestamp i) 1000%float) = inr (millis i).
Proof.
  unfold millis, timestamp.
  pose proof (timestamp_finite i) as Hfin.
  unfold millis_of in *.
  destruct (py_int _) as [e | z]; [discriminate Hfin | reflexivity].
Qed.

Lemma generated_id_inj (i j : Instant) :
  generated_id i = generated_id j <-> millis i = millis j.
Proof.
  unfold generated_id. split.
  - intros H. injection H as H. now apply (inj pretty).
  - now intros ->.
Qed.

Lemma generated_timestamp_utc (d : DateTime) :
  exists s, generated_timestamp d = JStr (s +:+ "Z").
Proof. now exists (isoformat d). Qed.

Section Properties.

Variable cfg : Config.
Variable env : Env.

(** *** The response *)

Lemma raise_for_status_run (resp : Response) (p : Proc) :
  raise_for_status resp p =
    (if (400 <=? status_code resp) && (status_code resp <? 600)
     then Raises (HTTPError resp) else Returns tt, p).
Proof.
  unfold raise_for_status.
  destruct (400 <=? status_code resp) eqn:H4;
    destruct (status_code resp <? 500) eqn:H5;
    destruct (500 <=? status_code resp) eqn:H5';
    destruct (status_code resp <? 600) eqn:H6;
    cbn; try reflexivity; lia.
Qed.

(** *** One run of [notify] *)

(** [notify] reads the clock twice, hands one request to [requests.post]
    and ends as the service's answer to that request decides. *)
Lemma notify_run (title event_type priority : json)
    (kwargs : gmap string json) (p : Proc) :
  let req := event_request cfg env p title event_type priority kwargs in
  notify cfg env title event_type priority kwargs p =
    (conclude env (service env (length (wire p)) req),
     {| clock_reads := S (S (clock_reads p)); wire := wire p ++ [req] |}).
Proof.
  intros req. unfold notify.
  erewrite py_bind_returns by reflexivity.
  erewrite py_bind_returns
    by (rewrite py_int_timestamp; reflexivity).
  erewrite py_bind_returns by reflexivity.
  cbn [clock_reads wire].
  fold (generated_id (clock env (clock_reads p))).
  fold (generated_timestamp (utc (clock env (S (clock_reads p))))).
  fold (event_fields (clock env (clock_reads p))
          (utc (clock env (S (clock_reads p)))) title event_type priority).
  unfold mbind, py_mbind, py_bind, requests_post. cbn [clock_reads wire].
  subst req. unfold event_request.
  set (req := mkRequest _ _ _ _ _).
  destruct (service env (length (wire p)) req) as [ | | resp];
    cbn [conclude]; try reflexivity.
  rewrite raise_for_status_run.
  destruct ((400 <=? status_code resp) && (status_code resp <? 600));
    [reflexivity | ].
  unfold response_json.
  destruct (json_loads env (text resp)); reflexivity.
Qed.

Lemma result_of_notify title event_type priority kwargs p :
  result_of (notify cfg env title event_type priority kwargs) p =
    conclude env
      (service env (length (wire p))
         (event_request cfg env p title event_type priority kwargs)).
Proof. unfold result_of. now rewrite notify_run. Qed.

Lemma state_after_notify title event_type priority kwargs p :
  state_after (notify cfg env title event_type priority kwargs) p =
    {| clock_reads := S (S (clock_reads p));
       wire := wire p
               ++ [event_request cfg env p title event_type priority kwargs] |}.
Proof. unfold state_after. now rewrite notify_run. Qed.

Lemma sent_notify title event_type priority kwargs p :
  sent (notify cfg env title event_type priority kwargs) p =
    [event_request cfg env p title event_type priority kwargs].
Proof.
  unfold sent. rewrite state_after_notify. cbn [wire].
  apply drop_app_length.
Qed.

(** *** The payload *)

Lemma unpack_into_extension (d kwargs : gmap string json) k v :
  kwargs !! k = Some v -> unpack_into d kwargs !! k = Some v.
Proof. intros H. unfold unpack_into. now apply lookup_union_Some_l. Qed.

Lemma unpack_into_other (d kwargs : gmap string json) k :
  kwargs !! k = None -> unpack_into d kwargs !! k = d !! k.
Proof. intros H. unfold unpack_into. now apply lookup_union_r. Qed.

Lemma dom_event_fields now utcnow title event_type priority :
  dom (event_fields now utcnow title event_type priority)
  = (list_to_set reserved : gset string).
Proof.
  unfold event_fields, reserved.
  rewrite !dom_insert_L, dom_singleton_L. cbn. set_solver.
Qed.

Lemma dom_unpack_into (d kwargs : gmap string json) :
  dom (unpack_into d kwargs) = dom d ∪ dom kwargs.
Proof. unfold unpack_into. rewrite dom_union_L. apply (comm_L (∪)). Qed.

(** *** Binding *)

Lemma bind_param_inr name positional keywords default v :
  bind_param name positional keywords default = inr v ->
  (positional = Some v /\ keywords !! name = None)
  \/ (positional = None /\ keywords !! name = Some v)
  \/ (positional = None /\ keywords !! name = None /\ default = Some v).
Proof.
  unfold bind_param.
  destruct positional as [a | ], (keywords !! name) as [b | ];
    try destruct default as [c | ]; intros H;
    first [discriminate H | injection H as H; subst; auto].
Qed.

Lemma bind_notify_inr args keywords title event_type priority kwargs :
  bind_notify args keywords = inr (title, event_type, priority, kwargs) ->
  bind_param "title" (args !! 0%nat) keywords None = inr title
  /\ bind_param "event_type" (args !! 1%nat) keywords (Some (JStr "custom"))
     = inr event_type
  /\ bind_param "priority" (args !! 2%nat) keywords (Some (JStr "ambient"))
     = inr priority
  /\ kwargs = delete "title" (delete "event_type" (delete "priority" keywords)).
Proof.
  unfold bind_notify.
  destruct (3 <? length args)%nat; [discriminate | ].
  destruct (bind_param "title" _ _ _) as [ | t]; [discriminate | ].
  destruct (bind_param "event_type" _ _ _) as [ | e]; [discriminate | ].
  destruct (bind_param "priority" _ _ _) as [ | q]; [discriminate | ].
  intros H. injection H as <- <- <- <-. auto.
Qed.

(** The parameters never reach [kwargs]; every other keyword does. *)
Lemma bound_kwargs args keywords title event_type priority kwargs :
  bind_notify args keywords = inr (title, event_type, priority, kwargs) ->
  forall k,
    kwargs !! k =
      if bool_decide (k ∈ ["title"; "event_type"; "priority"])
      then None else keywords !! k.
Proof.
  intros H k. apply bind_notify_inr in H as (_ & _ & _ & ->).
  case_bool_decide as Hk.
  - rewrite !elem_of_cons in Hk.
    destruct Hk as [-> | [-> | [-> | Hk]]];
      [ | | | now apply elem_of_nil in Hk];
      repeat first [apply lookup_delete_eq | rewrite lookup_delete_ne by done].
  - rewrite !lookup_delete_ne; [done | | | ];
      intros <-; apply Hk; set_solver.
Qed.

Lemma bound_title args keywords title event_type priority kwargs :
  bind_notify args keywords = inr (title, event_type, priority, kwargs) ->
  supplied "title" 0 args keywords = Some title.
Proof.
  intros H. apply bind_notify_inr in H as (H & _).
  unfold supplied.
  apply bind_param_inr in H as [[-> _] | [[-> ?] | [_ [_ ?]]]];
    [done | done | discriminate].
Qed.

Lemma call_notify_bound args keywords title event_type priority kwargs :
  bind_notify args keywords = inr (title, event_type, priority, kwargs) ->
  call_notify cfg env args keywords
  = notify cfg env title event_type priority kwargs.
Proof. intros H. unfold call_notify. now rewrite H. Qed.

(** A call whose arguments do not bind raises TypeError before anything
    is read or sent. *)
Lemma call_notify_unbound args keywords e p :
  bind_notify args keywords = inl e ->
  call_notify cfg env args keywords p = (Raises e, p).
Proof. intros H. unfold call_notify. now rewrite H. Qed.

(** *** What a caller observes *)

(** C3.  A call whose arguments bind sends one request, and its payload
    has under the key title the very value the caller gave as the title,
    by position or by name. *)
Theorem title_sent_unmodified args keywords title event_type priority kwargs p :
  bind_notify args keywords = inr (title, event_type, priority, kwargs) ->
  supplied "title" 0 args keywords = Some title
  /\ exists req,
       sent (call_notify cfg env args keywords) p = [req]
       /\ req_json req !! "title" = Some title.
Proof.
  intros Hbind. split; [now apply (bound_title _ _ _ _ _ _ Hbind) | ].
  rewrite (call_notify_bound _ _ _ _ _ _ Hbind), sent_notify.
  eexists; split; [reflexivity | ].
  cbn [req_json event_request].
  rewrite unpack_into_other.
  - reflexivity.
  - rewrite (bound_kwargs _ _ _ _ _ _ Hbind). reflexivity.
Qed.

(** C7.  When a call gives neither an event type nor a priority (at most
    one positional argument, no keyword of either name), the payload it
    sends has event_type custom and priority ambient. *)
Theorem defaults_when_omitted args keywords title event_type priority kwargs p :
  (length args <= 1)%nat ->
  keywords !! "event_type" = None ->
  keywords !! "priority" = None ->
  bind_notify args keywords = inr (title, event_type, priority, kwargs) ->
  exists req,
    sent (call_notify cfg env args keywords) p = [req]
    /\ req_json req !! "event_type" = Some (JStr "custom")
    /\ req_json req !! "priority" = Some (JStr "ambient").
Proof.
  intros Hlen Het Hpr Hbind.
  rewrite (call_notify_bound _ _ _ _ _ _ Hbind), sent_notify.
  eexists; split; [reflexivity | ].
  cbn [req_json event_request].
  rewrite !unpack_into_other
    by (rewrite (bound_kwargs _ _ _ _ _ _ Hbind); reflexivity).
  apply bind_notify_inr in Hbind as (_ & He & Hp & _).
  rewrite (lookup_ge_None_2 args 1) in He by lia.
  rewrite (lookup_ge_None_2 args 2) in Hp by lia.
  unfold bind_param in He, Hp. rewrite Het in He. rewrite Hpr in Hp.
  injection He as <-. injection Hp as <-.
  split; reflexivity.
Qed.

(** C9.  Every run of [notify] hands exactly one request to
    [requests.post], whatever the service does with it: a POST to the
    base URL followed by /api/v1/events, with the single header
    Authorization: Bearer token, the ten second limit, and a JSON object
    whose keys are the six event fields together with the keys of
    [kwargs], each extension field sitting at the top level with the
    value the caller gave. *)
Theorem one_post_per_invocation title event_type priority kwargs p :
  exists req,
    wire (state_after (notify cfg env title event_type priority kwargs) p)
      = wire p ++ [req]
    /\ sent (notify cfg env title event_type priority kwargs) p = [req]
    /\ req_method req = "POST"
    /\ req_url req = BREAKPOINT_URL cfg +:+ "/api/v1/events"
    /\ req_headers req
       = {[ "Authorization" := "Bearer " +:+ BREAKPOINT_TOKEN cfg ]}
    /\ req_timeout req = Some 10
    /\ dom (req_json req) = list_to_set reserved ∪ dom kwargs
    /\ forall k v, kwargs !! k = Some v -> req_json req !! k = Some v.
Proof.
  exists (event_request cfg env p title event_type priority kwargs).
  rewrite state_after_notify, sent_notify. cbn [wire].
  repeat split.
  - cbn [req_json event_request].
    now rewrite dom_unpack_into, dom_event_fields.
  - intros k v Hk. now apply unpack_into_extension.
Qed.

(** C4.  Against a service that never answers, [notify] does not block:
    it ends with the Timeout that [requests.post] raises when the limit
    of ten runs out, a transport error. *)
Theorem silent_service_times_out title event_type priority kwargs p :
  (forall req, service env (length (wire p)) req = Silent) ->
  result_of (notify cfg env title event_type priority kwargs) p
    = Raises (Timeout 10)
  /\ classify (Timeout 10) = TransportError
  /\ result_of (notify cfg env title event_type priority kwargs) p <> Blocks.
Proof.
  intros Hsilent. rewrite result_of_notify, Hsilent. cbn.
  repeat split. discriminate.
Qed.

(** C6.  When the service answers with a 2xx status and a body that the
    decoder rejects, [notify] ends with JSONDecodeError, a decode
    error. *)
Theorem undecodable_body_raises_decode_error
    title event_type priority kwargs p resp :
  service env (length (wire p))
    (event_request cfg env p title event_type priority kwargs) = Replies resp ->
  200 <= status_code resp < 300 ->
  json_loads env (text resp) = None ->
  result_of (notify cfg env title event_type priority kwargs) p
    = Raises JSONDecodeError
  /\ classify JSONDecodeError = DecodeError.
Proof.
  intros Hsvc Hok Hbody. rewrite result_of_notify, Hsvc. cbn [conclude].
  replace (400 <=? status_code resp) with false by lia.
  cbn. now rewrite Hbody.
Qed.

(** C10.  When the service answers with a 2xx status and a body that
    decodes to some JSON value, [notify] returns exactly that value: no
    field of it is looked at, so an acknowledgment of any shape is a
    success. *)
Theorem decoded_body_returned_verbatim
    title event_type priority kwargs p resp v :
  service env (length (wire p))
    (event_request cfg env p title event_type priority kwargs) = Replies resp ->
  200 <= status_code resp < 300 ->
  json_loads env (text resp) = Some v ->
  result_of (notify cfg env title event_type priority kwargs) p = Returns v.
Proof.
  intros Hsvc Hok Hbody. rewrite result_of_notify, Hsvc. cbn [conclude].
  replace (400 <=? status_code resp) with false by lia.
  cbn. now rewrite Hbody.
Qed.

(** C1, as the code has it.  In the payload of a call whose arguments
    bind, a keyword named id, source or timestamp is an extension field
    and its value is the one sent; the generated value is sent only when
    the caller gives no such keyword.  The names title, event_type and
    priority are parameters, so the payload has the bound parameter under
    those keys. *)
Theorem extension_fields_take_precedence
    args keywords title event_type priority kwargs p :
  bind_notify args keywords = inr (title, event_type, priority, kwargs) ->
  exists req,
    sent (call_notify cfg env args keywords) p = [req]
    /\ (forall k v, k ∈ ["id"; "source"; "timestamp"] ->
          keywords !! k = Some v -> req_json req !! k = Some v)
    /\ (forall k, k ∈ ["id"; "source"; "timestamp"] ->
          keywords !! k = None ->
          req_json req !! k =
            event_fields (clock env (clock_reads p))
                         (utc (clock env (S (clock_reads p))))
                         title event_type priority !! k)
    /\ req_json req !! "title" = Some title
    /\ req_json req !! "event_type" = Some event_type
    /\ req_json req !! "priority" = Some priority.
Proof.
  intros Hbind.
  rewrite (call_notify_bound _ _ _ _ _ _ Hbind), sent_notify.
  eexists; split; [reflexivity | ].
  cbn [req_json event_request].
  pose proof (bound_kwargs _ _ _ _ _ _ Hbind) as Hkw.
  assert (Hext : forall k, k ∈ ["id"; "source"; "timestamp"] ->
                   kwargs !! k = keywords !! k).
  { intros k Hk. rewrite Hkw. rewrite bool_decide_eq_false_2; [done | ].
    rewrite !elem_of_cons in Hk. rewrite !elem_of_cons.
    intros [-> | [-> | [-> | H]]];
      [ | | | now apply elem_of_nil in H];
      destruct Hk as [H | [H | [H | H]]];
      first [discriminate H | now apply elem_of_nil in H]. }
  split; [ | split; [ | repeat split]].
  - intros k v Hk Hv. apply unpack_into_extension. now rewrite Hext.
  - intros k Hk Hv. apply unpack_into_other. now rewrite Hext.
  - rewrite unpack_into_other by (rewrite Hkw; reflexivity). reflexivity.
  - rewrite unpack_into_other by (rewrite Hkw; reflexivity). reflexivity.
  - rewrite unpack_into_other by (rewrite Hkw; reflexivity). reflexivity.
Qed.

(** C5, as the code has it.  When the service answers, a status from 400
    to 599 ends [notify] with the HTTPError raised for that response, a
    protocol error that carries the response and so its status code.
    With any other status no HTTPError is raised and the decoding of the
    body decides the result. *)
Theorem http_error_statuses title event_type priority kwargs p resp :
  service env (length (wire p))
    (event_request cfg env p title event_type priority kwargs) = Replies resp ->
  (400 <= status_code resp < 600 ->
     result_of (notify cfg env title event_type priority kwargs) p
       = Raises (HTTPError resp)
     /\ classify (HTTPError resp) = ProtocolError)
  /\ (~ 400 <= status_code resp < 600 ->
       result_of (notify cfg env title event_type priority kwargs) p
         = match json_loads env (text resp) with
           | Some v => Returns v
           | None => Raises JSONDecodeError
           end).
Proof.
  intros Hsvc. rewrite result_of_notify, Hsvc. cbn [conclude].
  split; intros Hst.
  - replace (400 <=? status_code resp) with true by lia.
    replace (status_code resp <? 600) with true by lia.
    split; reflexivity.
  - destruct (400 <=? status_code resp) eqn:H4;
      destruct (status_code resp <? 600) eqn:H6; cbn; try reflexivity.
    lia.
Qed.

(** C8, as the code has it.  The payload's timestamp is the caller's
    value when [kwargs] has the key timestamp.  Without that key it is
    the isoformat of the UTC clock reading taken during the call, with Z
    appended; the call that follows renders a later reading of the same
    clock in the same way. *)
Theorem timestamp_from_utc_clock
    title event_type priority kwargs title' event_type' priority' kwargs' p :
  exists req req',
    sent (notify cfg env title event_type priority kwargs) p = [req]
    /\ sent (notify cfg env title' event_type' priority' kwargs')
            (state_after (notify cfg env title event_type priority kwargs) p)
       = [req']
    /\ (forall v, kwargs !! "timestamp" = Some v ->
          req_json req !! "timestamp" = Some v)
    /\ (kwargs !! "timestamp" = None ->
        req_json req !! "timestamp"
          = Some (JStr (isoformat (utc (clock env (1 + clock_reads p)))
                        +:+ "Z")))
    /\ (kwargs' !! "timestamp" = None ->
        req_json req' !! "timestamp"
          = Some (JStr (isoformat (utc (clock env (3 + clock_reads p)))
                        +:+ "Z"))).
Proof.
  rewrite !sent_notify, state_after_notify.
  do 2 eexists. split; [reflexivity | split; [reflexivity | ]].
  cbn [req_json event_request clock_reads].
  split; [ | split].
  - intros v Hv. now apply unpack_into_extension.
  - intros Hv. now rewrite unpack_into_other.
  - intros Hv. now rewrite unpack_into_other.
Qed.

(** C2, as the code has it.  Two calls in a row that leave the id to
    [notify] send different ids whenever the two clock readings give
    different values of int(timestamp * 1000). *)
Theorem ids_differ_when_millis_differ
    title event_type priority kwargs title' event_type' priority' kwargs' p :
  kwargs !! "id" = None ->
  kwargs' !! "id" = None ->
  millis (clock env (clock_reads p)) <> millis (clock env (2 + clock_reads p)) ->
  exists req req',
    sent (notify cfg env title event_type priority kwargs) p = [req]
    /\ sent (notify cfg env title' event_type' priority' kwargs')
            (state_after (notify cfg env title event_type priority kwargs) p)
       = [req']
    /\ req_json req !! "id" = Some (generated_id (clock env (clock_reads p)))
    /\ req_json req' !! "id"
       = Some (generated_id (clock env (2 + clock_reads p)))
    /\ req_json req !! "id" <> req_json req' !! "id".
Proof.
  intros Hid Hid' Hms.
  rewrite !sent_notify, state_after_notify.
  do 2 eexists. split; [reflexivity | split; [reflexivity | ]].
  cbn [req_json event_request clock_reads].
  rewrite !unpack_into_other by assumption.
  split; [reflexivity | split; [reflexivity | ]].
  change (Some (generated_id (clock env (clock_reads p)))
          <> Some (generated_id (clock env (2 + clock_reads p)))).
  intros H. apply (inj Some) in H. now apply generated_id_inj in H.
Qed.

End Properties.

(** ** Sample calls *)

(** *** Evaluating the model *)

Example millis_r0200 : millis r0200 = 1700000000000.
Proof. reflexivity. Qed.

Example millis_r0950 : millis r0950 = 1700000000000.
Proof. reflexivity. Qed.

Example millis_r3100 : millis r3100 = 1700000000003.
Proof. reflexivity. Qed.

(** The product of the double 1.001 with 1000 is below 1001, and [int]
    truncates. *)
Example millis_r_epoch : millis r_epoch = 1000.
Proof. reflexivity. Qed.

Example isoformat_with_fraction :
  isoformat (nov14 450) = "2023-11-14T22:13:20.000450".
Proof. reflexivity. Qed.

Example isoformat_whole_second : isoformat (nov14 0) = "2023-11-14T22:13:20".
Proof. reflexivity. Qed.

Example py_int_inf : py_int infinity = inl OverflowError.
Proof. reflexivity. Qed.

Example py_int_nan : py_int nan = inl ValueError.
Proof. reflexivity. Qed.

Example py_int_truncates : py_int (-2.75)%float = inr (-2).
Proof. reflexivity. Qed.

(** Without a limit, [requests.post] to a silent service never comes
    back; the limit that [notify] passes is what ends the wait. *)
Example post_without_limit_blocks :
  result_of
    (requests_post (env_with fast_clock (fun _ _ => Silent))
       "http://localhost:8080/api/v1/events" ∅ ∅ None) fresh = Blocks.
Proof. reflexivity. Qed.

(** Binding: a title given twice, too many positional arguments, and no
    title at all are TypeErrors, and nothing is sent. *)
Example title_given_twice :
  call_notify local_cfg (accepting fast_clock)
    [deploy] {[ "title" := JStr "other" ]} fresh
  = (Raises (TypeError (MultipleValues "title")), fresh).
Proof. reflexivity. Qed.

Example four_positional :
  call_notify local_cfg (accepting fast_clock)
    [deploy; custom; ambient; JNull] ∅ fresh
  = (Raises (TypeError (TooManyPositional 4)), fresh).
Proof. reflexivity. Qed.

Example no_title :
  call_notify local_cfg (accepting fast_clock) [] ∅ fresh
  = (Raises (TypeError (MissingArgument "title")), fresh).
Proof. reflexivity. Qed.

(** *** C1 *)

(** A caller who passes the keyword id has that value sent in place of
    the generated id. *)
Lemma caller_id_replaces_generated_id :
  exists req,
    sent (call_notify local_cfg (accepting fast_clock)
            [deploy] {[ "id" := JStr "mine" ]}) fresh = [req]
    /\ req_json req !! "id" = Some (JStr "mine")
    /\ generated_id (clock (accepting fast_clock) 0) = JStr "py-1700000000000"
    /\ req_json req !! "id"
       <> Some (generated_id (clock (accepting fast_clock) 0)).
Proof.
  eexists. split; [reflexivity | ].
  split; [reflexivity | split; [reflexivity | ]].
  vm_compute. discriminate.
Qed.

Lemma extension_fields_take_precedence_witness :
  exists req,
    sent (call_notify local_cfg (accepting fast_clock)
            [deploy] {[ "source" := JStr "ci"; "priority" := JStr "urgent" ]})
         fresh = [req]
    /\ req_json req !! "source" = Some (JStr "ci")
    /\ req_json req !! "id" = Some (JStr "py-1700000000000")
    /\ req_json req !! "priority" = Some (JStr "urgent").
Proof.
  destruct (extension_fields_take_precedence local_cfg (accepting fast_clock)
              [deploy] {[ "source" := JStr "ci"; "priority" := JStr "urgent" ]}
              deploy custom (JStr "urgent") {[ "source" := JStr "ci" ]} fresh)
    as (req & Hsent & Hext & Hgen & _ & _ & Hpr).
  - vm_compute. reflexivity.
  - exists req. split; [exact Hsent | ].
    split; [ | split].
    + apply Hext; [set_solver | reflexivity].
    + rewrite Hgen; [reflexivity | set_solver | reflexivity].
    + exact Hpr.
Defined.

(** *** C2 *)

(** Two calls in a row whose clock readings fall in the same millisecond
    send the same id. *)
Lemma same_millisecond_same_id :
  exists req req',
    sent (notify local_cfg (accepting fast_clock) deploy custom ambient ∅)
         fresh = [req]
    /\ sent (notify local_cfg (accepting fast_clock) deploy custom ambient ∅)
            (state_after
               (notify local_cfg (accepting fast_clock) deploy custom ambient ∅)
               fresh) = [req']
    /\ req_json req !! "id" = Some (JStr "py-1700000000000")
    /\ req_json req' !! "id" = Some (JStr "py-1700000000000")
    /\ req_json req !! "id" = req_json req' !! "id".
Proof. do 2 eexists. repeat split; reflexivity. Qed.

Lemma ids_differ_when_millis_differ_witness :
  exists req req',
    sent (notify local_cfg (accepting slow_clock) deploy custom ambient ∅)
         fresh = [req]
    /\ sent (notify local_cfg (accepting slow_clock) deploy custom ambient ∅)
            (state_after
               (notify local_cfg (accepting slow_clock) deploy custom ambient ∅)
               fresh) = [req']
    /\ req_json req !! "id" = Some (generated_id r0200)
    /\ req_json req' !! "id" = Some (generated_id r3100)
    /\ req_json req !! "id" <> req_json req' !! "id".
Proof.
  apply (ids_differ_when_millis_differ local_cfg (accepting slow_clock)
           deploy custom ambient ∅ deploy custom ambient ∅ fresh).
  - reflexivity.
  - reflexivity.
  - vm_compute. discriminate.
Defined.

(** *** C3 *)

Lemma title_sent_unmodified_witness :
  supplied "title" 0 [deploy] {[ "url" := JStr "https://ci/run/7" ]}
    = Some deploy
  /\ exists req,
       sent (call_notify local_cfg (accepting fast_clock)
               [deploy] {[ "url" := JStr "https://ci/run/7" ]}) fresh = [req]
       /\ req_json req !! "title" = Some deploy.
Proof.
  apply (title_sent_unmodified local_cfg (accepting fast_clock)
           [deploy] {[ "url" := JStr "https://ci/run/7" ]}
           deploy custom ambient {[ "url" := JStr "https://ci/run/7" ]} fresh).
  vm_compute. reflexivity.
Defined.

(** *** C4 *)

Lemma silent_service_times_out_witness :
  result_of
    (notify local_cfg (env_with fast_clock (fun _ _ => Silent))
       deploy custom ambient ∅) fresh = Raises (Timeout 10)
  /\ classify (Timeout 10) = TransportError
  /\ result_of
       (notify local_cfg (env_with fast_clock (fun _ _ => Silent))
          deploy custom ambient ∅) fresh <> Blocks.
Proof.
  apply (silent_service_times_out local_cfg
           (env_with fast_clock (fun _ _ => Silent))
           deploy custom ambient ∅ fresh).
  intros req. reflexivity.
Defined.

(** *** C5 *)

(** A status of 300 is no success status, yet [raise_for_status] lets it
    pass and [notify] returns the decoded body. *)
Lemma status_300_is_returned :
  result_of
    (notify local_cfg (env_with fast_clock (answering 300 "[]"))
       deploy custom ambient ∅) fresh = Returns (JList []).
Proof. reflexivity. Qed.

Lemma http_error_statuses_witness :
  result_of
    (notify local_cfg (env_with fast_clock (answering 401 "null"))
       deploy custom ambient ∅) fresh
  = Raises (HTTPError {| status_code := 401; text := "null" |})
  /\ classify (HTTPError {| status_code := 401; text := "null" |})
     = ProtocolError.
Proof.
  apply (http_error_statuses local_cfg
           (env_with fast_clock (answering 401 "null"))
           deploy custom ambient ∅ fresh
           {| status_code := 401; text := "null" |}).
  - reflexivity.
  - cbn. lia.
Defined.

(** *** C6 *)

Lemma undecodable_body_raises_decode_error_witness :
  result_of
    (notify local_cfg (env_with fast_clock (answering 200 "<html>ok</html>"))
       deploy custom ambient ∅) fresh = Raises JSONDecodeError
  /\ classify JSONDecodeError = DecodeError.
Proof.
  apply (undecodable_body_raises_decode_error local_cfg
           (env_with fast_clock (answering 200 "<html>ok</html>"))
           deploy custom ambient ∅ fresh
           {| status_code := 200; text := "<html>ok</html>" |}).
  - reflexivity.
  - cbn. lia.
  - reflexivity.
Defined.

(** *** C7 *)

Lemma defaults_when_omitted_witness :
  exists req,
    sent (call_notify local_cfg (accepting fast_clock)
            [] {[ "title" := deploy; "actor" := JStr "ci-bot" ]}) fresh = [req]
    /\ req_json req !! "event_type" = Some (JStr "custom")
    /\ req_json req !! "priority" = Some (JStr "ambient").
Proof.
  apply (defaults_when_omitted local_cfg (accepting fast_clock)
           [] {[ "title" := deploy; "actor" := JStr "ci-bot" ]}
           deploy custom ambient {[ "actor" := JStr "ci-bot" ]} fresh).
  - cbn. lia.
  - reflexivity.
  - reflexivity.
  - vm_compute. reflexivity.
Defined.

(** *** C8 *)

(** A caller who passes the keyword timestamp has that value sent: the
    field is then neither generated at the call nor in UTC form. *)
Lemma caller_timestamp_is_sent :
  exists req,
    sent (call_notify local_cfg (accepting fast_clock)
            [deploy] {[ "timestamp" := JStr "yesterday" ]}) fresh = [req]
    /\ req_json req !! "timestamp" = Some (JStr "yesterday")
    /\ req_json req !! "timestamp"
       <> Some (generated_timestamp (utc (clock (accepting fast_clock) 1))).
Proof.
  eexists. split; [reflexivity | split; [reflexivity | ]].
  vm_compute. discriminate.
Qed.

Lemma timestamp_from_utc_clock_witness :
  exists req req',
    sent (notify local_cfg (accepting slow_clock) deploy custom ambient ∅)
         fresh = [req]
    /\ sent (notify local_cfg (accepting slow_clock) deploy custom ambient ∅)
            (state_after
               (notify local_cfg (accepting slow_clock) deploy custom ambient ∅)
               fresh) = [req']
    /\ req_json req !! "timestamp" = Some (JStr "2023-11-14T22:13:20.000450Z")
    /\ req_json req' !! "timestamp" = Some (JStr "2023-11-14T22:13:20.003400Z").
Proof.
  destruct (timestamp_from_utc_clock local_cfg (accepting slow_clock)
              deploy custom ambient ∅ deploy custom ambient ∅ fresh)
    as (req & req' & Hsent & Hsent' & _ & Hts & Hts').
  exists req, req'.
  split; [exact Hsent | split; [exact Hsent' | split]].
  - rewrite Hts; reflexivity.
  - rewrite Hts'; reflexivity.
Defined.

(** The code orders nothing: when the wall clock is set back between two
    calls, the later call sends the earlier timestamp. *)
Example timestamps_follow_the_clock :
  req_json <$> sent (notify local_cfg (accepting set_back_clock)
                       deploy custom ambient ∅) fresh
    = [unpack_into (event_fields r3100 (nov14 3400) deploy custom ambient) ∅]
  /\ req_json <$> sent (notify local_cfg (accepting set_back_clock)
                          deploy custom ambient ∅)
                       (state_after
                          (notify local_cfg (accepting set_back_clock)
                             deploy custom ambient ∅) fresh)
     = [unpack_into (event_fields r0200 (nov14 450) deploy custom ambient) ∅].
Proof. split; reflexivity. Qed.

(** *** C9 *)

(** A failing service is asked once: the error is raised, nothing is
    sent again. *)
Example server_error_is_not_retried :
  result_of (notify local_cfg (env_with fast_clock (answering 503 "busy"))
               deploy custom ambient ∅) fresh
    = Raises (HTTPError {| status_code := 503; text := "busy" |})
  /\ length (sent (notify local_cfg (env_with fast_clock (answering 503 "busy"))
                     deploy custom ambient ∅) fresh) = 1%nat.
Proof. split; reflexivity. Qed.

Example unreachable_service_is_not_retried :
  result_of (notify local_cfg (env_with fast_clock (fun _ _ => Unreachable))
               deploy custom ambient ∅) fresh
    = Raises ConnectionError
  /\ length (sent (notify local_cfg
                     (env_with fast_clock (fun _ _ => Unreachable))
                     deploy custom ambient ∅) fresh) = 1%nat.
Proof. split; reflexivity. Qed.

(** *** C10 *)

(** A list is no acknowledgment object, and it is returned as it is. *)
Lemma decoded_body_returned_verbatim_witness :
  result_of
    (notify local_cfg (env_with fast_clock (answering 200 "[]"))
       deploy custom ambient ∅) fresh = Returns (JList []).
Proof.
  apply (decoded_body_returned_verbatim local_cfg
           (env_with fast_clock (answering 200 "[]"))
           deploy custom ambient ∅ fresh
           {| status_code := 200; text := "[]" |} (JList [])).
  - reflexivity.
  - cbn. lia.
  - reflexivity.
Defined.

(** ** Further properties of the adapter *)

(** *** The width of the timestamp *)

Lemma string_length_app (a b : string) :
  String.length (a +:+ b) = (String.length a + String.length b)%nat.
Proof.
  induction a as [ | c a IH]; [reflexivity | ].
  change (S (String.length (a +:+ b))
          = S (String.length a + String.length b)).
  now rewrite IH.
Qed.

Lemma zeros_length (n : nat) : String.length (zeros n) = n.
Proof. induction n as [ | n IH]; cbn; [reflexivity | now rewrite IH]. Qed.

Lemma pretty_N_go_length (k : nat) :
  forall (x : N) (s : string),
    (x < 10 ^ N.of_nat k)%N ->
    (String.length (pretty_N_go x s) <= k + String.length s)%nat.
Proof.
  induction k as [ | k IH]; intros x s Hx.
  - assert (x = 0%N) as -> by (cbn in Hx; lia).
    rewrite pretty_N_go_0. lia.
  - destruct (decide (x = 0%N)) as [-> | Hne].
    + rewrite pretty_N_go_0. lia.
    + rewrite pretty_N_go_step by lia.
      etransitivity; [apply IH | cbn; lia].
      rewrite Nat2N.inj_succ, N.pow_succ_r' in Hx.
      apply N.Div0.div_lt_upper_bound. exact Hx.
Qed.

Lemma pretty_N_length (k : nat) (x : N) :
  (0 < k)%nat -> (x < 10 ^ N.of_nat k)%N ->
  (String.length (pretty x) <= k)%nat.
Proof.
  intros Hk Hx. unfold pretty, pretty_N.
  destruct (decide (x = 0%N)).
  - cbn. lia.
  - pose proof (pretty_N_go_length k x "" Hx) as H.
    change (String.length "") with 0%nat in H. lia.
Qed.

Lemma zfill_length (w : nat) (n : N) :
  (0 < w)%nat -> (n < 10 ^ N.of_nat w)%N -> String.length (zfill w n) = w.
Proof.
  intros Hw Hn. unfold zfill.
  rewrite string_length_app, zeros_length.
  pose proof (pretty_N_length w n Hw Hn). lia.
Qed.

(** X1.  For the fields of a real datetime (year up to 9999, month up to
    12, day up to 31, hour up to 23, minute and second up to 59,
    microsecond up to 999999) the generated timestamp is a string of 20
    characters when the microsecond is zero and of 27 characters
    otherwise. *)
Theorem generated_timestamp_length (d : DateTime) :
  (year d <= 9999)%N -> (month d <= 12)%N -> (day d <= 31)%N ->
  (hour d <= 23)%N -> (minute d <= 59)%N -> (second d <= 59)%N ->
  (microsecond d <= 999999)%N ->
  exists s,
    generated_timestamp d = JStr s
    /\ String.length s = if (microsecond d =? 0)%N then 20%nat else 27%nat.
Proof.
  intros Hy Hmo Hd Hh Hmi Hs Hus.
  eexists. split; [reflexivity | ].
  unfold isoformat.
  rewrite !string_length_app.
  rewrite (zfill_length 4), !(zfill_length 2)
    by first [lia | change (10 ^ N.of_nat 4)%N with 10000%N; lia
             | change (10 ^ N.of_nat 2)%N with 100%N; lia].
  destruct (microsecond d =? 0)%N.
  - reflexivity.
  - rewrite string_length_app, (zfill_length 6)
      by first [lia | change (10 ^ N.of_nat 6)%N with 1000000%N; lia].
    reflexivity.
Qed.

Section Further.

Variable cfg : Config.
Variable env : Env.

(** *** How a run ends *)

(** X2.  When no connection to the service can be made, [notify] raises
    ConnectionError, a transport error, after one attempt: the record of
    requests grows by exactly one. *)
Theorem unreachable_service_raises_connection_error
    title event_type priority kwargs p :
  (forall req, service env (length (wire p)) req = Unreachable) ->
  result_of (notify cfg env title event_type priority kwargs) p
    = Raises ConnectionError
  /\ classify ConnectionError = TransportError
  /\ length (wire (state_after
                     (notify cfg env title event_type priority kwargs) p))
     = S (length (wire p)).
Proof.
  intros Hsvc. rewrite result_of_notify, state_after_notify, Hsvc.
  cbn [conclude wire]. rewrite length_app. cbn.
  repeat split. lia.
Qed.


(** X4.  [notify] returns a value exactly when the service replied with
    a status outside 400..599 and the decoder turned the body into that
    value. *)
Theorem notify_returns_iff title event_type priority kwargs p v :
  result_of (notify cfg env title event_type priority kwargs) p = Returns v
  <-> exists resp,
        service env (length (wire p))
          (event_request cfg env p title event_type priority kwargs)
          = Replies resp
        /\ ~ 400 <= status_code resp < 600
        /\ json_loads env (text resp) = Some v.
Proof.
  rewrite result_of_notify. split.
  - destruct (service env _ _) as [ | | resp]; cbn [conclude];
      [discriminate | discriminate | ].
    destruct ((400 <=? status_code resp) && (status_code resp <? 600))
      eqn:Hst; [discriminate | ].
    destruct (json_loads env (text resp)) as [w | ] eqn:Hw;
      [ | discriminate].
    intros [= <-]. exists resp. split; [reflexivity | split; [lia | exact Hw]].
  - intros (resp & -> & Hst & Hv). cbn [conclude].
    replace ((400 <=? status_code resp) && (status_code resp <? 600))
      with false by lia.
    now rewrite Hv.
Qed.

(** *** The payload *)

(** X5.  When no key of [kwargs] is one of the six event field names,
    the payload has the generated id and timestamp, the constant source
    and the three parameters under their keys, and its size is six plus
    the number of extension fields. *)
Theorem payload_without_collisions title event_type priority kwargs p :
  (forall k, k ∈ reserved -> kwargs !! k = None) ->
  exists req,
    sent (notify cfg env title event_type priority kwargs) p = [req]
    /\ req_json req !! "id" = Some (generated_id (clock env (clock_reads p)))
    /\ req_json req !! "event_type" = Some event_type
    /\ req_json req !! "source" = Some (JStr "python-adapter")
    /\ req_json req !! "priority" = Some priority
    /\ req_json req !! "title" = Some title
    /\ req_json req !! "timestamp"
       = Some (generated_timestamp (utc (clock env (S (clock_reads p)))))
    /\ size (req_json req) = (6 + size kwargs)%nat.
Proof.
  intros Hfree. rewrite sent_notify.
  eexists; split; [reflexivity | ].
  cbn [req_json event_request].
  rewrite !unpack_into_other by (apply Hfree; unfold reserved; set_solver).
  repeat (split; [reflexivity | ]).
  unfold unpack_into.
  rewrite map_size_disj_union.
  - rewrite <- (size_dom (D := gset string) (event_fields _ _ _ _ _)).
    rewrite dom_event_fields. rewrite Nat.add_comm. reflexivity.
  - apply map_disjoint_spec. intros k v w Hv Hw.
    rewrite Hfree in Hv; [discriminate | ].
    apply (elem_of_list_to_set (C := gset string)).
    rewrite <- (dom_event_fields (clock env (clock_reads p))
                  (utc (clock env (S (clock_reads p))))
                  title event_type priority).
    apply elem_of_dom. eauto.
Qed.

(** *** Calls in a row *)

(** X6.  A row of calls, whatever each one ends with, reads the clock
    twice per call and adds one request per call to the record, leaving
    the requests recorded before in place. *)
Theorem calls_accumulate (calls : list Invocation) (p : Proc) :
  clock_reads (run_each cfg env calls p)
    = (clock_reads p + 2 * length calls)%nat
  /\ length (wire (run_each cfg env calls p))
     = (length (wire p) + length calls)%nat
  /\ wire p `prefix_of` wire (run_each cfg env calls p).
Proof.
  revert p. induction calls as [ | c calls IH]; intros p.
  - cbn. repeat split; [lia | lia | reflexivity].
  - change (run_each cfg env (c :: calls) p)
      with (run_each cfg env calls
              (state_after
                 (notify cfg env (inv_title c) (inv_event_type c)
                         (inv_priority c) (inv_kwargs c)) p)).
    destruct (IH (state_after
                    (notify cfg env (inv_title c) (inv_event_type c)
                            (inv_priority c) (inv_kwargs c)) p))
      as (Hclock & Hlen & Hpre).
    rewrite state_after_notify in Hclock, Hlen, Hpre.
    cbn [clock_reads wire] in Hclock, Hlen, Hpre.
    rewrite length_app in Hlen. cbn [length] in *.
    rewrite state_after_notify.
    repeat split; [lia | lia | ].
    etransitivity; [ | exact Hpre]. now apply prefix_app_r.
Qed.

(** *** Binding *)

(** X7.  The arguments of a call bind exactly when at most three are
    positional, a title is given by position or by name, and none of
    title, event_type and priority is given both by position and by
    name. *)
Theorem call_binds_iff (args : list json) (keywords : gmap string json) :
  is_inr (bind_notify args keywords) = true
  <-> (length args <= 3)%nat
      /\ is_Some (supplied "title" 0 args keywords)
      /\ ~ (is_Some (args !! 0%nat) /\ is_Some (keywords !! "title"))
      /\ ~ (is_Some (args !! 1%nat) /\ is_Some (keywords !! "event_type"))
      /\ ~ (is_Some (args !! 2%nat) /\ is_Some (keywords !! "priority")).
Proof.
  unfold bind_notify, bind_param, supplied.
  destruct (3 <? length args)%nat eqn:Hlen.
  - apply Nat.ltb_lt in Hlen. cbn. split; [discriminate | lia].
  - apply Nat.ltb_ge in Hlen.
    destruct (args !! 0%nat), (keywords !! "title"),
      (args !! 1%nat), (keywords !! "event_type"),
      (args !! 2%nat), (keywords !! "priority"); cbn;
      (split;
       [ intros H;
         first [ discriminate H
               | repeat split; eauto; intros [[? ?] [? ?]]; discriminate ]
       | intros (_ & Ht & H0 & H1 & H2);
         first [ reflexivity
               | exfalso; solve [apply H0; split; eauto]
               | exfalso; solve [apply H1; split; eauto]
               | exfalso; solve [apply H2; split; eauto]
               | exfalso; destruct Ht as [? Ht]; discriminate Ht ] ]).
Qed.

(** X8.  A call whose arguments do not bind raises TypeError and has no
    effect: the clock is not read and nothing is sent. *)
Theorem unbound_call_has_no_effect
    (args : list json) (keywords : gmap string json) (p : Proc) :
  is_inr (bind_notify args keywords) = false ->
  exists why, call_notify cfg env args keywords p = (Raises (TypeError why), p).
Proof.
  unfold call_notify, bind_notify, bind_param.
  destruct (3 <? length args)%nat; [eauto | ].
  destruct (args !! 0%nat), (keywords !! "title"),
    (args !! 1%nat), (keywords !! "event_type"),
    (args !! 2%nat), (keywords !! "priority"); cbn;
    intros H; first [discriminate H | eauto].
Qed.

End Further.

(** *** The module constants *)

(** X9.  With neither BREAKPOINT_URL nor BREAKPOINT_API_TOKEN set, a run
    of [notify] posts to http://localhost:8080/api/v1/events and still
    sends the Authorization header, with an empty token after Bearer. *)
Theorem unset_environment_uses_defaults
    (environ : gmap string string) env title event_type priority kwargs p :
  environ !! "BREAKPOINT_URL" = None ->
  environ !! "BREAKPOINT_API_TOKEN" = None ->
  exists req,
    sent (notify (load_config environ) env title event_type priority kwargs) p
      = [req]
    /\ req_url req = "http://localhost:8080/api/v1/events"
    /\ req_headers req = {[ "Authorization" := "Bearer " ]}.
Proof.
  intros Hurl Htok. rewrite sent_notify.
  eexists; split; [reflexivity | ].
  cbn [req_url req_headers event_request load_config
       BREAKPOINT_URL BREAKPOINT_TOKEN].
  unfold environ_get. rewrite Hurl, Htok. split; reflexivity.
Qed.

(** X10.  A variable that is set is used as it stands, the empty string
    included: the URL handed to [requests.post] is the value of
    BREAKPOINT_URL followed by /api/v1/events, and the header has the
    value of BREAKPOINT_API_TOKEN after Bearer. *)
Theorem set_environment_is_used_verbatim
    (environ : gmap string string) (url token : string)
    env title event_type priority kwargs p :
  environ !! "BREAKPOINT_URL" = Some url ->
  environ !! "BREAKPOINT_API_TOKEN" = Some token ->
  exists req,
    sent (notify (load_config environ) env title event_type priority kwargs) p
      = [req]
    /\ req_url req = url +:+ "/api/v1/events"
    /\ req_headers req = {[ "Authorization" := "Bearer " +:+ token ]}.
Proof.
  intros Hurl Htok. rewrite sent_notify.
  eexists; split; [reflexivity | ].
  cbn [req_url req_headers event_request load_config
       BREAKPOINT_URL BREAKPOINT_TOKEN].
  unfold environ_get. rewrite Hurl, Htok. split; reflexivity.
Qed.

(** ** Properties of the script *)

Section ScriptProperties.

Variable cfg : Config.
Variable env : Env.
Variable py_str : json -> string.

(** The script gives the title by position and the two other parameters
    by name, so its call always binds, with no extension field. *)
Lemma script_call_binds (title event_type priority : string) :
  bind_notify [JStr title]
    {[ "event_type" := JStr event_type; "priority" := JStr priority ]}
  = inr (JStr title, JStr event_type, JStr priority, ∅).
Proof. reflexivity. Qed.

(** The script with a title: one run of [notify], then the last line. *)
Lemma main_with_title (prog title : string) (rest : list string) (s : Script) :
  let req := script_request cfg env (proc s) title rest in
  let s' := {| stdout := stdout s;
               proc := {| clock_reads := S (S (clock_reads (proc s)));
                          wire := wire (proc s) ++ [req] |} |} in
  main cfg env py_str (prog :: title :: rest) s =
    match conclude env (service env (length (wire (proc s))) req) with
    | Returns result => report py_str result s'
    | Raises e => (Dies (FromNotify e), s')
    | Blocks => (Hangs, s')
    end.
Proof.
  intros req s'. subst req s'. unfold script_request.
  assert (Hcall : forall event_type priority,
    call (call_notify cfg env [JStr title]
            {[ "event_type" := JStr event_type;
               "priority" := JStr priority ]}) s
    = match conclude env
              (service env (length (wire (proc s)))
                 (event_request cfg env (proc s) (JStr title)
                    (JStr event_type) (JStr priority) ∅)) with
      | Returns result =>
          (Done result,
           {| stdout := stdout s;
              proc := {| clock_reads := S (S (clock_reads (proc s)));
                         wire := wire (proc s)
                                 ++ [event_request cfg env (proc s) (JStr title)
                                       (JStr event_type) (JStr priority) ∅] |} |})
      | Raises e =>
          (Dies (FromNotify e),
           {| stdout := stdout s;
              proc := {| clock_reads := S (S (clock_reads (proc s)));
                         wire := wire (proc s)
                                 ++ [event_request cfg env (proc s) (JStr title)
                                       (JStr event_type) (JStr priority) ∅] |} |})
      | Blocks =>
          (Hangs,
           {| stdout := stdout s;
              proc := {| clock_reads := S (S (clock_reads (proc s)));
                         wire := wire (proc s)
                                 ++ [event_request cfg env (proc s) (JStr title)
                                       (JStr event_type) (JStr priority) ∅] |} |})
      end).
  { intros event_type priority. unfold call, call_notify.
    rewrite script_call_binds, notify_run.
    destruct (conclude env _); reflexivity. }
  destruct rest as [ | event_type [ | priority rest]];
    cbv [main report mbind sc_mbind sc_bind mret sc_mret sc_ret index
         length Nat.ltb Nat.leb lookup list_lookup default];
    rewrite Hcall;
    destruct (conclude env _); reflexivity.
Qed.

(** The last line: printed when the result is a dict with both keys;
    otherwise the first failing subscript ends the script. *)
Lemma report_run (result : json) (s : Script) :
  report py_str result s =
    match result with
    | JDict d =>
        match items_get "accepted" d, items_get "event_ids" d with
        | Some accepted, Some event_ids =>
            (Done tt,
             {| stdout := stdout s
                          ++ ["Accepted " +:+ py_str accepted
                              +:+ " event(s): " +:+ py_str event_ids];
                proc := proc s |})
        | Some _, None => (Dies (KeyError "event_ids"), s)
        | None, _ => (Dies (KeyError "accepted"), s)
        end
    | _ => (Dies SubscriptTypeError, s)
    end.
Proof.
  destruct result as [ | b | n | t | l | d]; try reflexivity.
  cbv [report mbind sc_mbind sc_bind subscript sc_ret sc_die print].
  destruct (items_get "accepted" d), (items_get "event_ids" d); reflexivity.
Qed.

(** X11.  Run with no title (one element in [sys.argv]) the script
    prints the usage line naming the program and exits with status 1; it
    reads no clock and sends nothing.  With an empty [sys.argv] the
    index of the program name fails first. *)
Theorem script_without_title (argv : list string) (s : Script) :
  (length argv < 2)%nat ->
  main cfg env py_str argv s =
    match argv with
    | [] => (Dies IndexError, s)
    | prog :: _ =>
        (Dies (SystemExit 1),
         {| stdout := stdout s ++ [usage prog]; proc := proc s |})
    end.
Proof.
  intros Hlen.
  destruct argv as [ | prog [ | title rest]]; cbn in Hlen;
    [reflexivity | reflexivity | lia].
Qed.

(** X12.  Run with a title the script makes exactly one request, whose
    payload is the six event fields and nothing else: the title is the
    first argument, the event type the second or custom, the priority
    the third or ambient; further arguments are ignored.  Its call of
    [notify] never fails to bind. *)
Theorem script_sends_one_event (prog title : string) (rest : list string)
    (s : Script) :
  exists req,
    wire (proc (snd (main cfg env py_str (prog :: title :: rest) s)))
      = wire (proc s) ++ [req]
    /\ req_json req
       = event_fields (clock env (clock_reads (proc s)))
           (utc (clock env (S (clock_reads (proc s)))))
           (JStr title)
           (JStr (default "custom" (rest !! 0%nat)))
           (JStr (default "ambient" (rest !! 1%nat)))
    /\ forall why,
         fst (main cfg env py_str (prog :: title :: rest) s)
         <> Dies (FromNotify (TypeError why)).
Proof.
  exists (script_request cfg env (proc s) title rest).
  pose proof (main_with_title prog title rest s) as Hmain.
  cbv zeta in Hmain. rewrite Hmain. clear Hmain.
  split; [ | split].
  - destruct (conclude env _) as [result | e | ]; try reflexivity.
    rewrite report_run.
    destruct result as [ | b | n | t | l | d]; try reflexivity.
    destruct (items_get "accepted" d), (items_get "event_ids" d);
      reflexivity.
  - unfold script_request, event_request, unpack_into. cbn [req_json].
    apply (left_id_L ∅ (∪)).
  - intros why.
    destruct (service env _ _) as [ | | resp]; cbn [conclude];
      try (cbn; discriminate).
    destruct ((400 <=? status_code resp) && (status_code resp <? 600));
      [cbn; discriminate | ].
    destruct (json_loads env (text resp)) as [result | ];
      [ | cbn; discriminate].
    rewrite report_run.
    destruct result as [ | b | n | t | l | d]; try (cbn; discriminate).
    destruct (items_get "accepted" d), (items_get "event_ids" d);
      cbn; discriminate.
Qed.

(** The run of the script on an acknowledgment with both keys. *)
Lemma main_acknowledged (prog title : string) (rest : list string)
    (s : Script) resp d accepted event_ids :
  service env (length (wire (proc s)))
    (script_request cfg env (proc s) title rest) = Replies resp ->
  ~ 400 <= status_code resp < 600 ->
  json_loads env (text resp) = Some (JDict d) ->
  items_get "accepted" d = Some accepted ->
  items_get "event_ids" d = Some event_ids ->
  main cfg env py_str (prog :: title :: rest) s =
    (Done tt,
     {| stdout := stdout s ++ ["Accepted " +:+ py_str accepted
                               +:+ " event(s): " +:+ py_str event_ids];
        proc := {| clock_reads := S (S (clock_reads (proc s)));
                   wire := wire (proc s)
                           ++ [script_request cfg env (proc s) title rest] |}
     |}).
Proof.
  intros Hsvc Hst Hbody Hacc Hids.
  pose proof (main_with_title prog title rest s) as Hmain.
  cbv zeta in Hmain. rewrite Hmain, Hsvc. clear Hmain.
  cbn [conclude].
  replace ((400 <=? status_code resp) && (status_code resp <? 600))
    with false by lia.
  now rewrite Hbody, report_run, Hacc, Hids.
Qed.

(** X13.  When the service replies with a status outside 400..599 and
    the body decodes to a dict that has the keys accepted and event_ids,
    the script prints the line Accepted ... event(s): ... with the texts
    of the two values, and ends with exit status 0. *)
Theorem script_prints_acknowledgment (prog title : string)
    (rest : list string) (s : Script) resp d accepted event_ids :
  service env (length (wire (proc s)))
    (script_request cfg env (proc s) title rest) = Replies resp ->
  ~ 400 <= status_code resp < 600 ->
  json_loads env (text resp) = Some (JDict d) ->
  items_get "accepted" d = Some accepted ->
  items_get "event_ids" d = Some event_ids ->
  fst (main cfg env py_str (prog :: title :: rest) s) = Done tt
  /\ stdout (snd (main cfg env py_str (prog :: title :: rest) s))
     = stdout s ++ ["Accepted " +:+ py_str accepted
                    +:+ " event(s): " +:+ py_str event_ids]
  /\ exit_status (fst (main cfg env py_str (prog :: title :: rest) s))
     = Some 0.
Proof.
  intros Hsvc Hst Hbody Hacc Hids.
  rewrite (main_acknowledged prog title rest s resp d accepted event_ids)
    by assumption.
  repeat split.
Qed.

(** X14.  When the service replies with a status outside 400..599 and
    the body decodes to a value without the expected keys, the event has
    been sent but the script prints nothing and dies with exit status 1:
    with TypeError when the value is no dict, with KeyError accepted
    when that key is missing, and else with KeyError event_ids. *)
Theorem script_dies_on_unexpected_acknowledgment (prog title : string)
    (rest : list string) (s : Script) resp v :
  service env (length (wire (proc s)))
    (script_request cfg env (proc s) title rest) = Replies resp ->
  ~ 400 <= status_code resp < 600 ->
  json_loads env (text resp) = Some v ->
  (forall d, v = JDict d ->
     items_get "accepted" d = None \/ items_get "event_ids" d = None) ->
  fst (main cfg env py_str (prog :: title :: rest) s)
    = Dies (match v with
            | JDict d =>
                match items_get "accepted" d with
                | None => KeyError "accepted"
                | Some _ => KeyError "event_ids"
                end
            | _ => SubscriptTypeError
            end)
  /\ stdout (snd (main cfg env py_str (prog :: title :: rest) s)) = stdout s
  /\ wire (proc (snd (main cfg env py_str (prog :: title :: rest) s)))
     = wire (proc s) ++ [script_request cfg env (proc s) title rest]
  /\ exit_status (fst (main cfg env py_str (prog :: title :: rest) s))
     = Some 1.
Proof.
  intros Hsvc Hst Hbody Hkeys.
  pose proof (main_with_title prog title rest s) as Hmain.
  cbv zeta in Hmain. rewrite Hmain, Hsvc. clear Hmain.
  cbn [conclude].
  replace ((400 <=? status_code resp) && (status_code resp <? 600))
    with false by lia.
  rewrite Hbody, report_run.
  destruct v as [ | b | n | t | l | d]; try (repeat split; reflexivity).
  destruct (Hkeys d eq_refl) as [Hacc | Hids].
  - rewrite Hacc. repeat split.
  - rewrite Hids. destruct (items_get "accepted" d); repeat split.
Qed.

(** X15.  Whatever [notify] raises ends the script: nothing is caught,
    nothing is printed, and the exit status is 1. *)
Theorem script_propagates_errors (prog title : string) (rest : list string)
    (s : Script) (e : exn) :
  result_of
    (notify cfg env (JStr title)
       (JStr (default "custom" (rest !! 0%nat)))
       (JStr (default "ambient" (rest !! 1%nat))) ∅) (proc s) = Raises e ->
  fst (main cfg env py_str (prog :: title :: rest) s) = Dies (FromNotify e)
  /\ stdout (snd (main cfg env py_str (prog :: title :: rest) s)) = stdout s
  /\ exit_status (fst (main cfg env py_str (prog :: title :: rest) s))
     = Some 1.
Proof.
  rewrite result_of_notify. intros Hres.
  pose proof (main_with_title prog title rest s) as Hmain.
  cbv zeta in Hmain. rewrite Hmain. clear Hmain.
  unfold script_request. rewrite Hres. repeat split.
Qed.

(** X16.  The script ends with exit status 0 exactly when it was given a
    title, the service replied with a status outside 400..599, and the
    body decoded to a dict with the keys accepted and event_ids. *)
Theorem script_exit_zero_iff (argv : list string) (s : Script) :
  exit_status (fst (main cfg env py_str argv s)) = Some 0
  <-> exists prog title rest resp d accepted event_ids,
        argv = prog :: title :: rest
        /\ service env (length (wire (proc s)))
             (script_request cfg env (proc s) title rest) = Replies resp
        /\ ~ 400 <= status_code resp < 600
        /\ json_loads env (text resp) = Some (JDict d)
        /\ items_get "accepted" d = Some accepted
        /\ items_get "event_ids" d = Some event_ids.
Proof.
  split.
  - destruct argv as [ | prog [ | title rest]];
      [cbn; discriminate | cbn; discriminate | ].
    pose proof (main_with_title prog title rest s) as Hmain.
    cbv zeta in Hmain. rewrite Hmain. clear Hmain.
    destruct (service env _ _) as [ | | resp] eqn:Hsvc; cbn [conclude];
      try (cbn; discriminate).
    destruct ((400 <=? status_code resp) && (status_code resp <? 600))
      eqn:Hst; [cbn; discriminate | ].
    destruct (json_loads env (text resp)) as [result | ] eqn:Hbody;
      [ | cbn; discriminate].
    rewrite report_run.
    destruct result as [ | b | n | t | l | d]; try (cbn; discriminate).
    destruct (items_get "accepted" d) as [accepted | ] eqn:Hacc;
      [ | cbn; discriminate].
    destruct (items_get "event_ids" d) as [event_ids | ] eqn:Hids;
      [ | cbn; discriminate].
    intros _. exists prog, title, rest, resp, d, accepted, event_ids.
    repeat split; try assumption; lia.
  - intros (prog & title & rest & resp & d & accepted & event_ids
            & -> & Hsvc & Hst & Hbody & Hacc & Hids).
    now rewrite (main_acknowledged prog title rest s resp d accepted event_ids)
      by assumption.
Qed.


End ScriptProperties.

(** ** Sample runs for the further properties *)

Lemma generated_timestamp_length_witness :
  exists s,
    generated_timestamp (nov14 450) = JStr s /\ String.length s = 27%nat.
Proof.
  apply (generated_timestamp_length (nov14 450)); cbn; lia.
Defined.

Lemma unreachable_service_raises_connection_error_witness :
  result_of
    (notify local_cfg (env_with fast_clock (fun _ _ => Unreachable))
       deploy custom ambient ∅) fresh = Raises ConnectionError
  /\ classify ConnectionError = TransportError
  /\ length (wire (state_after
                     (notify local_cfg
                        (env_with fast_clock (fun _ _ => Unreachable))
                        deploy custom ambient ∅) fresh))
     = 1%nat.
Proof.
  apply (unreachable_service_raises_connection_error local_cfg
           (env_with fast_clock (fun _ _ => Unreachable))
           deploy custom ambient ∅ fresh).
  intros req. reflexivity.
Defined.

Lemma payload_without_collisions_witness :
  exists req,
    sent (notify local_cfg (accepting fast_clock) deploy custom ambient
            {[ "url" := JStr "https://ci/run/7" ]}) fresh = [req]
    /\ req_json req !! "id" = Some (JStr "py-1700000000000")
    /\ req_json req !! "source" = Some (JStr "python-adapter")
    /\ size (req_json req) = 7%nat.
Proof.
  destruct (payload_without_collisions local_cfg (accepting fast_clock)
              deploy custom ambient {[ "url" := JStr "https://ci/run/7" ]}
              fresh)
    as (req & Hsent & Hid & _ & Hsrc & _ & _ & _ & Hsize).
  - intros k Hk. unfold reserved in Hk.
    repeat (apply elem_of_cons in Hk as [-> | Hk]; [reflexivity | ]).
    now apply elem_of_nil in Hk.
  - exists req. repeat split; assumption.
Defined.

Lemma unbound_call_has_no_effect_witness :
  exists why,
    call_notify local_cfg (accepting fast_clock)
      [] {[ "url" := JStr "https://ci/run/7" ]} fresh
    = (Raises (TypeError why), fresh).
Proof.
  apply (unbound_call_has_no_effect local_cfg (accepting fast_clock)
           [] {[ "url" := JStr "https://ci/run/7" ]} fresh).
  reflexivity.
Defined.

Lemma unset_environment_uses_defaults_witness :
  exists req,
    sent (notify (load_config ∅) (accepting fast_clock)
            deploy custom ambient ∅) fresh = [req]
    /\ req_url req = "http://localhost:8080/api/v1/events"
    /\ req_headers req = {[ "Authorization" := "Bearer " ]}.
Proof.
  apply (unset_environment_uses_defaults ∅ (accepting fast_clock)
           deploy custom ambient ∅ fresh); reflexivity.
Defined.

(** An empty BREAKPOINT_URL is not replaced by the default. *)
Lemma set_environment_is_used_verbatim_witness :
  exists req,
    sent (notify
            (load_config {[ "BREAKPOINT_URL" := "";
                            "BREAKPOINT_API_TOKEN" := "s3cr3t" ]})
            (accepting fast_clock) deploy custom ambient ∅) fresh = [req]
    /\ req_url req = "/api/v1/events"
    /\ req_headers req = {[ "Authorization" := "Bearer s3cr3t" ]}.
Proof.
  apply (set_environment_is_used_verbatim
           {[ "BREAKPOINT_URL" := ""; "BREAKPOINT_API_TOKEN" := "s3cr3t" ]}
           "" "s3cr3t" (accepting fast_clock) deploy custom ambient ∅ fresh);
    reflexivity.
Defined.

Lemma script_without_title_witness :
  main local_cfg ack_env show ["notify.py"] console
  = (Dies (SystemExit 1),
     {| stdout := ["Usage: notify.py <title> [event_type] [priority]"];
        proc := fresh |}).
Proof.
  apply (script_without_title local_cfg ack_env show ["notify.py"] console).
  cbn. lia.
Defined.

Lemma script_prints_acknowledgment_witness :
  fst (main local_cfg ack_env show ["notify.py"; "Deploy finished"] console)
    = Done tt
  /\ stdout (snd (main local_cfg ack_env show
                    ["notify.py"; "Deploy finished"] console))
     = ["Accepted 1 event(s): []"]
  /\ exit_status (fst (main local_cfg ack_env show
                         ["notify.py"; "Deploy finished"] console))
     = Some 0.
Proof.
  apply (script_prints_acknowledgment local_cfg ack_env show
           "notify.py" "Deploy finished" [] console
           {| status_code := 200; text := "ack" |}
           [("accepted", JInt 1); ("event_ids", JList [])]
           (JInt 1) (JList [])).
  - reflexivity.
  - cbn. lia.
  - reflexivity.
  - reflexivity.
  - reflexivity.
Defined.

(** The service accepted the event and answered with an empty object:
    the script dies with KeyError. *)
Lemma script_dies_on_unexpected_acknowledgment_witness :
  fst (main local_cfg (accepting fast_clock) show
         ["notify.py"; "Deploy finished"] console)
    = Dies (KeyError "accepted")
  /\ stdout (snd (main local_cfg (accepting fast_clock) show
                    ["notify.py"; "Deploy finished"] console)) = []
  /\ wire (proc (snd (main local_cfg (accepting fast_clock) show
                        ["notify.py"; "Deploy finished"] console)))
     = [script_request local_cfg (accepting fast_clock) fresh
          "Deploy finished" []]
  /\ exit_status (fst (main local_cfg (accepting fast_clock) show
                         ["notify.py"; "Deploy finished"] console))
     = Some 1.
Proof.
  apply (script_dies_on_unexpected_acknowledgment local_cfg
           (accepting fast_clock) show
           "notify.py" "Deploy finished" [] console
           {| status_code := 200; text := "{}" |} (JDict [])).
  - reflexivity.
  - cbn. lia.
  - reflexivity.
  - intros d Hd. injection Hd as <-. left. reflexivity.
Defined.

Lemma script_propagates_errors_witness :
  fst (main local_cfg (env_with fast_clock (answering 503 "busy")) show
         ["notify.py"; "Deploy finished"; "pipeline.failed"] console)
    = Dies (FromNotify (HTTPError {| status_code := 503; text := "busy" |}))
  /\ stdout (snd (main local_cfg (env_with fast_clock (answering 503 "busy"))
                    show ["notify.py"; "Deploy finished"; "pipeline.failed"]
                    console)) = []
  /\ exit_status
       (fst (main local_cfg (env_with fast_clock (answering 503 "busy")) show
               ["notify.py"; "Deploy finished"; "pipeline.failed"] console))
     = Some 1.
Proof.
  apply (script_propagates_errors local_cfg
           (env_with fast_clock (answering 503 "busy")) show
           "notify.py" "Deploy finished" ["pipeline.failed"] console
           (HTTPError {| status_code := 503; text := "busy" |})).
  reflexivity.
Defined.

(** ** Extension fields of a call *)

Section PassThrough.

Variable cfg : Config.
Variable env : Env.

(** X18.  In a call whose arguments bind, every keyword that is not
    title, event_type or priority is sent as a top-level field of the
    payload with the value the caller gave, whatever its name. *)
Theorem extension_fields_pass_through
    args keywords title event_type priority kwargs p :
  bind_notify args keywords = inr (title, event_type, priority, kwargs) ->
  exists req,
    sent (call_notify cfg env args keywords) p = [req]
    /\ forall k v,
         k ∉ ["title"; "event_type"; "priority"] ->
         keywords !! k = Some v ->
         req_json req !! k = Some v.
Proof.
  intros Hbind.
  rewrite (call_notify_bound _ _ _ _ _ _ _ _ Hbind), sent_notify.
  eexists; split; [reflexivity | ].
  intros k v Hk Hv. cbn [req_json event_request].
  apply unpack_into_extension.
  rewrite (bound_kwargs _ _ _ _ _ _ Hbind).
  now rewrite bool_decide_eq_false_2.
Qed.

End PassThrough.

Lemma extension_fields_pass_through_witness :
  exists req,
    sent (call_notify local_cfg (accepting fast_clock) [deploy]
            {[ "tags" := JList [JStr "ci"; JStr "prod"];
               "priority" := JStr "notice" ]}) fresh = [req]
    /\ req_json req !! "tags" = Some (JList [JStr "ci"; JStr "prod"]).
Proof.
  destruct (extension_fields_pass_through local_cfg (accepting fast_clock)
              [deploy]
              {[ "tags" := JList [JStr "ci"; JStr "prod"];
                 "priority" := JStr "notice" ]}
              deploy custom (JStr "notice")
              {[ "tags" := JList [JStr "ci"; JStr "prod"] ]} fresh)
    as (req & Hsent & Hext).
  - vm_compute. reflexivity.
  - exists req. split; [exact Hsent | ].
    apply Hext; [ | reflexivity].
    rewrite !elem_of_cons, elem_of_nil. intros [H | [H | [H | H]]];
      first [discriminate H | exact H].
Defined.
